(** * Fitness Coach API: a shallow embedding of [main.py] and [schemas.py]

    The request handlers of the service are embedded as computations of a
    small state-and-exception monad over the process state (the shared store
    handle and the environment).  Python values are modelled as the code has
    them:

    - a [float] is an IEEE 754 binary64 number, Rocq's primitive [float];
      every arithmetic step of the handlers is the corresponding primitive
      operation, and an [int] operand of a mixed operation is converted to
      [float] first, as Python does;
    - a [str] is a [string], one [ascii] per character, which covers the code
      points below U+0100; [lower] and [strip] are Python's [str.lower] and
      [str.strip] on that range.  The status texts of [test_database] carry
      symbols outside it; they are only concatenated, never indexed, and are
      kept as the bytes of the source file;
    - a [dict] is a finite map ([gmap]); the in-code catalogues are built by
      the insertions of their literals;
    - a raised exception is the [Raised] outcome of the monad. *)

From Stdlib Require Import ZArith NArith String Ascii List Bool Lia.
From Stdlib Require Import Floats DecimalString.
From stdpp Require Import gmap strings.

Set Warnings "-inexact-float,-register-all".

Local Open Scope string_scope.
Local Open Scope Z_scope.

(** ** Strings *)

(** [str.isspace] of one character, for code points below U+0100. *)
Definition is_space (c : ascii) : bool :=
  let n := N_of_ascii c in
  ((9 <=? n) && (n <=? 13) || (28 <=? n) && (n <=? 32)
   || (n =? 133) || (n =? 160))%N.

(** [str.lower] of one character: the ASCII capitals and the Latin-1
    capitals (U+00C0..U+00DE, the multiplication sign apart) move by 32. *)
Definition lower_char (c : ascii) : ascii :=
  let n := N_of_ascii c in
  if ((65 <=? n) && (n <=? 90)
      || (192 <=? n) && (n <=? 222) && negb (n =? 215))%N
  then ascii_of_N (n + 32) else c.

Fixpoint lower (s : string) : string :=
  match s with
  | EmptyString => EmptyString
  | String c t => String (lower_char c) (lower t)
  end.

Fixpoint lstrip (s : string) : string :=
  match s with
  | EmptyString => EmptyString
  | String c t => if is_space c then lstrip t else s
  end.

Fixpoint rstrip (s : string) : string :=
  match s with
  | EmptyString => EmptyString
  | String c t =>
      match rstrip t with
      | EmptyString => if is_space c then EmptyString else String c EmptyString
      | t' => String c t'
      end
  end.

(** [s.strip()] *)
Definition strip (s : string) : string := rstrip (lstrip s).

(** The slice [s[:n]]. *)
Fixpoint str_take (n : nat) (s : string) : string :=
  match n, s with
  | S n', String c t => String c (str_take n' t)
  | _, _ => EmptyString
  end.

(** [sub in s] *)
Fixpoint str_contains (sub s : string) : bool :=
  String.prefix sub s ||
  match s with
  | EmptyString => false
  | String _ t => str_contains sub t
  end.

(** ** Numbers *)

(** Truth value of a [float]: false exactly on the two zeros. *)
Definition float_truthy (x : float) : bool := negb (PrimFloat.eqb x 0%float).

(** [x or d] for an optional [float] [x] ([None] is Python's [None]). *)
Definition float_or (x : option float) (d : float) : float :=
  match x with
  | Some v => if float_truthy v then v else d
  | None => d
  end.

(** Conversion of an [int] to [float], to nearest, ties to even. *)
Definition float_of_int (z : Z) : float :=
  SF2Prim (binary_normalize prec emax z 0 false).

(** [max(a, b)] of two numbers: [b] when [b > a], otherwise [a]. *)
Definition py_max (a b : float) : float :=
  if PrimFloat.ltb a b then b else a.

(** The integer nearest to [m * 2^e] for [0 <= m], ties to the even one. *)
Definition round_half_even (m e : Z) : Z :=
  if 0 <=? e then m * 2 ^ e
  else
    let d := 2 ^ (- e) in
    let q := m / d in
    match 2 * (m mod d) ?= d with
    | Lt => q
    | Gt => q + 1
    | Eq => if Z.even q then q else q + 1
    end.

(** ** Exceptions and the handler monad *)

Inductive exn : Type :=
  | HTTPException (status_code : Z) (detail : string)
  | ValidationError (msg : string)
  | OverflowError (msg : string)
  | ValueError (msg : string)
  | TypeError (msg : string)
  | StorageError (msg : string).

(** [str(e)] *)
Definition str_exn (e : exn) : string :=
  match e with
  | HTTPException _ detail => detail
  | ValidationError msg | OverflowError msg | ValueError msg
  | TypeError msg | StorageError msg => msg
  end.

Inductive outcome (A : Type) : Type :=
  | Returned (a : A)
  | Raised (e : exn).
Arguments Returned {A} a.
Arguments Raised {A} e.

Definition is_Returned {A} (o : outcome A) : bool :=
  match o with Returned _ => true | Raised _ => false end.

(** [round(x)] of a [float], as an [int]: undefined on the infinities and
    on NaN. *)
Definition py_round (x : float) : outcome Z :=
  match Prim2SF x with
  | S754_zero _ => Returned 0
  | S754_finite s m e =>
      let r := round_half_even (Zpos m) e in
      Returned (if s then - r else r)
  | S754_infinity _ =>
      Raised (OverflowError "cannot convert float infinity to integer")
  | S754_nan => Raised (ValueError "cannot convert float NaN to integer")
  end.

(** ** Stored documents *)

(** A value of a stored document (JSON-like). *)
Inductive value : Type :=
  | VNull
  | VBool (b : bool)
  | VInt (z : Z)
  | VFloat (f : float)
  | VStr (s : string)
  | VList (l : list value)
  | VDict (kvs : list (string * value)).

Abbreviation document := (gmap string value).

(** Exact equality of two stored values. *)
Fixpoint value_eqb (a b : value) : bool :=
  match a, b with
  | VNull, VNull => true
  | VBool x, VBool y => Bool.eqb x y
  | VInt x, VInt y => Z.eqb x y
  | VFloat x, VFloat y => PrimFloat.Leibniz.eqb x y
  | VStr x, VStr y => String.eqb x y
  | VList xs, VList ys =>
      (fix go (xs ys : list value) : bool :=
         match xs, ys with
         | [], [] => true
         | x :: xs', y :: ys' => value_eqb x y && go xs' ys'
         | _, _ => false
         end) xs ys
  | VDict xs, VDict ys =>
      (fix go (xs ys : list (string * value)) : bool :=
         match xs, ys with
         | [], [] => true
         | (k, x) :: xs', (k', y) :: ys' =>
             String.eqb k k' && value_eqb x y && go xs' ys'
         | _, _ => false
         end) xs ys
  | _, _ => false
  end.

(** [d.get(key, default)] *)
Definition dict_get (d : document) (key : string) (default : value) : value :=
  match d !! key with
  | Some v => v
  | None => default
  end.

(** Records that serialise to a stored document (pydantic's [BaseModel]). *)
Class BaseModel (A : Type) : Type := model_dump : A → document.

(** ** Process state and the handler monad *)

(** The store behind the handle [db]: its collections in store order, the
    failure it answers every operation with when it cannot be reached, and
    the supply of fresh identifiers. *)
Record database : Type := {
  collections : gmap string (list document);
  store_fault : option string;
  next_id : N;
}.

(** A call into the document-access layer (kept as a trace, to state which
    handlers touch the store). *)
Inductive store_call : Type :=
  | InsertOne (collection_name : string)
  | Find (collection_name : string)
  | ListCollectionNames.

Record World : Type := {
  db : option database;
  environ : gmap string string;
  store_calls : list store_call;
}.

Definition M (A : Type) : Type := World → outcome A * World.

Definition ret {A} (a : A) : M A := λ w, (Returned a, w).

Definition raise {A} (e : exn) : M A := λ w, (Raised e, w).

Definition bind {A B} (m : M A) (k : A → M B) : M B :=
  λ w, match m w with
       | (Returned a, w') => k a w'
       | (Raised e, w') => (Raised e, w')
       end.

Notation "x <- m ;; k" := (bind m (λ x, k))
  (at level 100, m at next level, right associativity).

(** An operation that may raise but touches no state. *)
Definition lift {A} (o : outcome A) : M A := λ w, (o, w).

(** [try: body except Exception as e: handler(e)] *)
Definition try_except {A} (body : M A) (handler : exn → M A) : M A :=
  λ w, match body w with
       | (Returned a, w') => (Returned a, w')
       | (Raised e, w') => handler e w'
       end.

Definition record_call (c : store_call) : M unit :=
  λ w, (Returned tt,
        {| db := db w; environ := environ w;
           store_calls := store_calls w ++ [c] |}).

(** [os.getenv(name)] *)
Definition getenv (name : string) : M (option string) :=
  λ w, (Returned (environ w !! name), w).

(** ** The document-access layer *)

Definition not_available : string := "Database not available".

(** The handle, when the store can serve an operation. *)
Definition connected : M database :=
  λ w, match db w with
       | None => (Raised (StorageError not_available), w)
       | Some d =>
           match store_fault d with
           | Some msg => (Raised (StorageError msg), w)
           | None => (Returned d, w)
           end
       end.

Definition set_db (d : database) : M unit :=
  λ w, (Returned tt,
        {| db := Some d; environ := environ w; store_calls := store_calls w |}).

(** String form of a generated identifier. *)
Definition render_id (n : N) : string := NilZero.string_of_uint (N.to_uint n).

Definition collection (d : database) (collection_name : string) : list document :=
  default [] (collections d !! collection_name).

(** Modelled from the spec: [create_document] of [database.py], which is not
    among the sources.  It serialises the record, inserts it as one new
    document of the named collection and returns a newly generated
    identifier in string form; it fails with a storage error when the store
    is unavailable or unreachable. *)
Definition create_document {A} `{BaseModel A}
    (collection_name : string) (data : A) : M string :=
  _ <- record_call (InsertOne collection_name) ;;
  d <- connected ;;
  _ <- set_db {| collections :=
                   <[collection_name :=
                       (collection d collection_name ++ [model_dump data])%list]>
                     (collections d);
                 store_fault := store_fault d;
                 next_id := N.succ (next_id d) |} ;;
  ret (render_id (next_id d)).

(** A document meets a filter when it holds, under every field name of the
    filter, exactly the value given for it. *)
Definition matches (flt : list (string * value)) (d : document) : bool :=
  forallb (λ kv, match d !! kv.1 with
                 | Some v => value_eqb v kv.2
                 | None => false
                 end) flt.

(** Modelled from the spec: [get_documents] of [database.py], which is not
    among the sources.  It returns the documents of the named collection
    that meet the filter, in store order (none is not an error), and fails
    with a storage error when the store is unavailable or unreachable. *)
Definition get_documents (collection_name : string)
    (flt : list (string * value)) : M (list document) :=
  _ <- record_call (Find collection_name) ;;
  d <- connected ;;
  ret (List.filter (matches flt) (collection d collection_name)).

(** [db.list_collection_names()] on a handle that is not [None]. *)
Definition list_collection_names (d : database) : M (list string) :=
  _ <- record_call ListCollectionNames ;;
  match store_fault d with
  | Some msg => raise (StorageError msg)
  | None => ret (map fst (map_to_list (collections d)))
  end.

(** ** Schemas ([schemas.py]) and the request and response shapes *)

Module MealItem.
Record t : Type := {
  name : string;
  calories : float;
  quantity : option float;
}.
End MealItem.

Module MealLog.
Record t : Type := {
  user_id : string;
  date : string;
  items : list MealItem.t;
  total_calories : float;
  notes : option string;
}.
End MealLog.

(** Construction of a [MealLog]: the field constraint [total_calories >= 0]
    is checked, and a value that fails it is refused. *)
Definition MealLog_init (user_id date : string) (items : list MealItem.t)
    (total_calories : float) (notes : option string) : outcome MealLog.t :=
  if PrimFloat.leb 0 total_calories
  then Returned {| MealLog.user_id := user_id; MealLog.date := date;
                   MealLog.items := items;
                   MealLog.total_calories := total_calories;
                   MealLog.notes := notes |}
  else Raised (ValidationError "total_calories: greater than or equal to 0").

Definition dump_optional {A} (f : A → value) (x : option A) : value :=
  match x with
  | Some a => f a
  | None => VNull
  end.

Definition dump_MealItem (item : MealItem.t) : value :=
  VDict [("name", VStr (MealItem.name item));
         ("calories", VFloat (MealItem.calories item));
         ("quantity", dump_optional VFloat (MealItem.quantity item))].

#[export] Instance MealLog_BaseModel : BaseModel MealLog.t := λ doc,
  <["user_id" := VStr (MealLog.user_id doc)]>
  (<["date" := VStr (MealLog.date doc)]>
  (<["items" := VList (map dump_MealItem (MealLog.items doc))]>
  (<["total_calories" := VFloat (MealLog.total_calories doc)]>
  (<["notes" := dump_optional VStr (MealLog.notes doc)]> ∅)))).

Module LogMealRequest.
Record t : Type := {
  user_id : string;
  date : string;
  items : list MealItem.t;
  notes : option string;
}.
End LogMealRequest.

Module LogMealResponse.
Record t : Type := {
  log_id : string;
  total_calories : float;
}.
End LogMealResponse.

Module DaySummary.
Record t : Type := {
  date : string;
  total_calories : float;
}.
End DaySummary.

Module DietRequest.
Record t : Type := {
  age : Z;
  sex : string;
  height_cm : float;
  weight_kg : float;
  activity_level : string;
  goal : string;
}.
End DietRequest.

(** The field constraints of [DietRequest], checked before the handler runs. *)
Definition valid_DietRequest (req : DietRequest.t) : Prop :=
  0 <= DietRequest.age req <= 120
  ∧ PrimFloat.leb 0 (DietRequest.height_cm req) = true
  ∧ PrimFloat.leb 0 (DietRequest.weight_kg req) = true.

Module DietPlan.
Record t : Type := {
  target_calories : Z;
  protein_g : Z;
  carbs_g : Z;
  fat_g : Z;
  tips : list string;
}.
End DietPlan.

Module FormGuideRequest.
Record t : Type := { exercise : string }.
End FormGuideRequest.

Module FormGuideResponse.
Record t : Type := {
  name : string;
  cues : list string;
  mistakes : list string;
}.
End FormGuideResponse.

(** The object [test_database] answers with. *)
Module Diagnostics.
Record t : Type := {
  backend : string;
  database : string;
  database_url : option string;
  database_name : option string;
  connection_status : string;
  collections : list string;
}.
End Diagnostics.

(** ** Diagnostics ([test_database]) *)

(** Truth value of what [os.getenv] returned. *)
Definition env_truthy (v : option string) : bool :=
  match v with
  | Some (String _ _) => true
  | _ => false
  end.

Definition set_or_not (v : option string) : string :=
  if env_truthy v then "✅ Set" else "❌ Not Set".

Definition with_database (r : Diagnostics.t) (text : string) : Diagnostics.t :=
  {| Diagnostics.backend := Diagnostics.backend r;
     Diagnostics.database := text;
     Diagnostics.database_url := Diagnostics.database_url r;
     Diagnostics.database_name := Diagnostics.database_name r;
     Diagnostics.connection_status := Diagnostics.connection_status r;
     Diagnostics.collections := Diagnostics.collections r |}.

Definition with_collections (r : Diagnostics.t) (names : list string)
    : Diagnostics.t :=
  {| Diagnostics.backend := Diagnostics.backend r;
     Diagnostics.database := Diagnostics.database r;
     Diagnostics.database_url := Diagnostics.database_url r;
     Diagnostics.database_name := Diagnostics.database_name r;
     Diagnostics.connection_status := Diagnostics.connection_status r;
     Diagnostics.collections := names |}.

Definition probe_error_prefix : string := "⚠️  Connected but Error: ".

Definition outer_error_prefix : string := "❌ Error: ".

(** Between its first assignment and the inner [try] the outer [try] block
    holds no operation that can raise, and the inner [try] catches every
    exception, so the outer handler starts from the initial [response]. *)
Definition test_database : M Diagnostics.t :=
  let response :=
    {| Diagnostics.backend := "✅ Running";
       Diagnostics.database := "❌ Not Available";
       Diagnostics.database_url := None;
       Diagnostics.database_name := None;
       Diagnostics.connection_status := "Not Connected";
       Diagnostics.collections := [] |} in
  try_except
    (λ w,
       match db w with
       | Some d =>
           (url <- getenv "DATABASE_URL" ;;
            name <- getenv "DATABASE_NAME" ;;
            let response :=
              {| Diagnostics.backend := Diagnostics.backend response;
                 Diagnostics.database := "✅ Available";
                 Diagnostics.database_url := Some (set_or_not url);
                 Diagnostics.database_name := Some (set_or_not name);
                 Diagnostics.connection_status := "Connected";
                 Diagnostics.collections := Diagnostics.collections response |} in
            try_except
              (collections <- list_collection_names d ;;
               ret (with_database (with_collections response (take 10 collections))
                      "✅ Connected & Working"))
              (λ e, ret (with_database response
                           (probe_error_prefix ++ str_take 50 (str_exn e))))) w
       | None =>
           ret (with_database response "⚠️  Available but not initialized") w
       end)
    (λ e, ret (with_database response
                 (outer_error_prefix ++ str_take 50 (str_exn e)))).

(** ** Meal logging ([log_meal]) *)

(** [x or d] for a [float] [x]. *)
Definition or_float (x d : float) : float :=
  if float_truthy x then x else d.

(** [sum(xs)]: the additions start from 0 and run left to right. *)
Definition py_sum (xs : list float) : float :=
  fold_left PrimFloat.add xs 0%float.

(** [(item.calories or 0) * (item.quantity or 1)] *)
Definition item_calories (item : MealItem.t) : float :=
  (or_float (MealItem.calories item) 0 * float_or (MealItem.quantity item) 1)%float.

Definition log_meal (payload : LogMealRequest.t) : M LogMealResponse.t :=
  let total := py_sum (map item_calories (LogMealRequest.items payload)) in
  doc <- lift (MealLog_init (LogMealRequest.user_id payload)
                 (LogMealRequest.date payload)
                 (LogMealRequest.items payload)
                 total
                 (LogMealRequest.notes payload)) ;;
  inserted_id <- create_document "meallog" doc ;;
  ret {| LogMealResponse.log_id := inserted_id;
         LogMealResponse.total_calories := total |}.

(** ** Daily summary ([daily_summary]) *)

Section DailySummary.

(** Python's parser of a numeral held in a [str] (the built-in
    [float(str)]), which the handler does not depend on beyond calling it. *)
Variable float_of_str : string → outcome float.

(** [float(v)] *)
Definition py_float (v : value) : outcome float :=
  match v with
  | VFloat f => Returned f
  | VInt z =>
      let f := float_of_int z in
      if PrimFloat.is_infinity f
      then Raised (OverflowError "int too large to convert to float")
      else Returned f
  | VBool b => Returned (if b then 1%float else 0%float)
  | VStr s => float_of_str s
  | VNull | VList _ | VDict _ =>
      Raised (TypeError "float() argument must be a string or a real number")
  end.

(** The loop [for d in docs: total += float(d.get("total_calories", 0))]. *)
Fixpoint add_totals (docs : list document) (total : float) : outcome float :=
  match docs with
  | [] => Returned total
  | d :: rest =>
      match py_float (dict_get d "total_calories" (VInt 0)) with
      | Returned x => add_totals rest (total + x)%float
      | Raised e => Raised e
      end
  end.

Definition daily_summary (user_id date : string) : M DaySummary.t :=
  docs <- get_documents "meallog"
            [("user_id", VStr user_id); ("date", VStr date)] ;;
  total <- lift (add_totals docs 0%float) ;;
  ret {| DaySummary.date := date; DaySummary.total_calories := total |}.

End DailySummary.

(** ** Diet plan ([diet_plan]) *)

Definition _activity_factors : gmap string float :=
  <["sedentary" := 1.2%float]>
  (<["light" := 1.375%float]>
  (<["moderate" := 1.55%float]>
  (<["active" := 1.725%float]>
  (<["very_active" := 1.9%float]> ∅)))).

Definition diet_tips : list string :=
  ["Aim for whole foods: lean protein, veggies, fruits, whole grains";
   "Drink enough water (2-3L/day)";
   "Prioritize protein in each meal"].

Definition diet_plan (req : DietRequest.t) : M DietPlan.t :=
  let sex := lower (DietRequest.sex req) in
  if negb (existsb (String.eqb sex) ["male"; "female"]) then
    raise (HTTPException 400 "sex must be 'male' or 'female'")
  else
    match _activity_factors !! DietRequest.activity_level req with
    | None => raise (HTTPException 400 "invalid activity_level")
    | Some factor =>
        (* Mifflin-St Jeor BMR *)
        let bmr :=
          if String.eqb sex "male" then
            (10 * DietRequest.weight_kg req + 6.25 * DietRequest.height_cm req
             - float_of_int (5 * DietRequest.age req) + 5)%float
          else
            (10 * DietRequest.weight_kg req + 6.25 * DietRequest.height_cm req
             - float_of_int (5 * DietRequest.age req) - 161)%float in
        let tdee := (bmr * factor)%float in
        let target :=
          if String.eqb (DietRequest.goal req) "lose" then (tdee - 500)%float
          else if String.eqb (DietRequest.goal req) "gain" then (tdee + 300)%float
          else tdee in
        let target := py_max 1200 target in (* safety lower bound *)
        (* Simple macro split: 30/40/30 (P/C/F) *)
        let protein_cal := (0.30 * target)%float in
        let carb_cal := (0.40 * target)%float in
        let fat_cal := (0.30 * target)%float in
        target_calories <- lift (py_round target) ;;
        protein_g <- lift (py_round (protein_cal / 4)) ;;
        carbs_g <- lift (py_round (carb_cal / 4)) ;;
        fat_g <- lift (py_round (fat_cal / 9)) ;;
        ret {| DietPlan.target_calories := target_calories;
               DietPlan.protein_g := protein_g;
               DietPlan.carbs_g := carbs_g;
               DietPlan.fat_g := fat_g;
               DietPlan.tips := diet_tips |}
    end.

(** ** Exercise form guidance ([exercise_form]) *)

Module FormEntry.
Record t : Type := {
  cues : list string;
  mistakes : list string;
}.
End FormEntry.

Definition squat_entry : FormEntry.t :=
  {| FormEntry.cues :=
       ["Feet shoulder-width, toes slightly out";
        "Brace core, neutral spine";
        "Knees track over toes";
        "Sit back and down until thighs are parallel"];
     FormEntry.mistakes :=
       ["Heels lifting"; "Knees collapsing in"; "Rounding the back"] |}.

Definition push_up_entry : FormEntry.t :=
  {| FormEntry.cues :=
       ["Hands under shoulders";
        "Body in a straight line";
        "Elbows ~45 degrees";
        "Chest to floor, full lockout"];
     FormEntry.mistakes :=
       ["Sagging hips"; "Flaring elbows"; "Half reps"] |}.

Definition deadlift_entry : FormEntry.t :=
  {| FormEntry.cues :=
       ["Bar over mid-foot";
        "Hinge at hips, flat back";
        "Lats tight, bar close";
        "Push the floor, stand tall"];
     FormEntry.mistakes :=
       ["Rounding lower back"; "Jerking the bar"; "Bar drifting forward"] |}.

(** A minimal in-code catalog. *)
Definition _form_library : gmap string FormEntry.t :=
  <["squat" := squat_entry]>
  (<["push-up" := push_up_entry]>
  (<["deadlift" := deadlift_entry]> ∅)).

Definition not_found_detail : string :=
  "Exercise not found. Try squat, push-up, or deadlift".

Definition exercise_form (req : FormGuideRequest.t) : M FormGuideResponse.t :=
  let name := lower (strip (FormGuideRequest.exercise req)) in
  match _form_library !! name with
  | None => raise (HTTPException 404 not_found_detail)
  | Some entry =>
      ret {| FormGuideResponse.name := name;
             FormGuideResponse.cues := FormEntry.cues entry;
             FormGuideResponse.mistakes := FormEntry.mistakes entry |}
  end.

(** ** The formulas of the specification

    These follow the wording of the specification; the theorems below
    compare them with the handlers. *)

(** One item's share of a meal total: calories times quantity, an absent
    quantity counting as 1. *)
Definition spec_item_calories (item : MealItem.t) : float :=
  (MealItem.calories item * default 1%float (MealItem.quantity item))%float.

Definition spec_meal_total (items : list MealItem.t) : float :=
  py_sum (map spec_item_calories items).

(** Mifflin-St Jeor. *)
Definition spec_bmr (sex : string) (weight_kg height_cm : float) (age : Z)
    : float :=
  if String.eqb sex "male" then
    (10 * weight_kg + 6.25 * height_cm - 5 * float_of_int age + 5)%float
  else
    (10 * weight_kg + 6.25 * height_cm - 5 * float_of_int age - 161)%float.

Definition spec_activity_table : list (string * float) :=
  [("sedentary", 1.2%float); ("light", 1.375%float); ("moderate", 1.55%float);
   ("active", 1.725%float); ("very_active", 1.9%float)].

Fixpoint assoc {A} (key : string) (table : list (string * A)) : option A :=
  match table with
  | [] => None
  | (k, v) :: rest => if String.eqb k key then Some v else assoc key rest
  end.

Definition spec_adjust (goal : string) (tdee : float) : float :=
  if String.eqb goal "lose" then (tdee - 500)%float
  else if String.eqb goal "gain" then (tdee + 300)%float
  else tdee.

(** Goal-adjusted energy expenditure, before the floor of 1200. *)
Definition spec_adjusted (req : DietRequest.t) (factor : float) : float :=
  spec_adjust (DietRequest.goal req)
    (spec_bmr (lower (DietRequest.sex req)) (DietRequest.weight_kg req)
       (DietRequest.height_cm req) (DietRequest.age req) * factor)%float.

Definition spec_target (req : DietRequest.t) (factor : float) : float :=
  py_max 1200 (spec_adjusted req factor).

(** The stored [total_calories] of a MealLog document. *)
Definition stored_total (d : document) : float :=
  match d !! "total_calories" with
  | Some (VFloat f) => f
  | _ => 0%float
  end.

(** A request is recognised by the diet-plan handler. *)
Definition sex_recognised (req : DietRequest.t) : Prop :=
  lower (DietRequest.sex req) = "male" ∨ lower (DietRequest.sex req) = "female".

Definition activity_recognised (req : DietRequest.t) : Prop :=
  In (DietRequest.activity_level req)
    ["sedentary"; "light"; "moderate"; "active"; "very_active"].

(** A first state of the process: an empty reachable store. *)
Definition empty_database : database :=
  {| collections := ∅; store_fault := None; next_id := 0 |}.

Definition fresh_world : World :=
  {| db := Some empty_database; environ := ∅; store_calls := [] |}.

(** ** Auxiliary definitions of the statements *)

(** A string that does not begin with white space. *)
Definition head_not_space (s : string) : Prop :=
  match s with
  | EmptyString => True
  | String c _ => is_space c = false
  end.

Definition form_request (s : string) : FormGuideRequest.t :=
  {| FormGuideRequest.exercise := s |}.

Definition form_response (name : string) (entry : FormEntry.t)
    : FormGuideResponse.t :=
  {| FormGuideResponse.name := name;
     FormGuideResponse.cues := FormEntry.cues entry;
     FormGuideResponse.mistakes := FormEntry.mistakes entry |}.

Definition ages : list Z := map Z.of_nat (seq 0 121).


(** The plan built from an unrounded, clamped target: the target and the
    three macro quotients (30% protein and 40% carbohydrate at 4 kcal/g,
    30% fat at 9 kcal/g) are rounded, in this order. *)
Definition spec_plan (target : float) : outcome DietPlan.t :=
  match py_round target with
  | Raised e => Raised e
  | Returned target_calories =>
  match py_round (0.30 * target / 4)%float with
  | Raised e => Raised e
  | Returned protein_g =>
  match py_round (0.40 * target / 4)%float with
  | Raised e => Raised e
  | Returned carbs_g =>
  match py_round (0.30 * target / 9)%float with
  | Raised e => Raised e
  | Returned fat_g =>
      Returned {| DietPlan.target_calories := target_calories;
                  DietPlan.protein_g := protein_g;
                  DietPlan.carbs_g := carbs_g;
                  DietPlan.fat_g := fat_g;
                  DietPlan.tips := diet_tips |}
  end end end end.

Definition diet_request (age : Z) (sex : string) (height_cm weight_kg : float)
    (activity_level goal : string) : DietRequest.t :=
  {| DietRequest.age := age; DietRequest.sex := sex;
     DietRequest.height_cm := height_cm; DietRequest.weight_kg := weight_kg;
     DietRequest.activity_level := activity_level; DietRequest.goal := goal |}.

Definition with_goal (req : DietRequest.t) (goal : string) : DietRequest.t :=
  diet_request (DietRequest.age req) (DietRequest.sex req)
    (DietRequest.height_cm req) (DietRequest.weight_kg req)
    (DietRequest.activity_level req) goal.

Definition diet_plan_of (target_calories protein_g carbs_g fat_g : Z)
    : DietPlan.t :=
  {| DietPlan.target_calories := target_calories;
     DietPlan.protein_g := protein_g;
     DietPlan.carbs_g := carbs_g;
     DietPlan.fat_g := fat_g;
     DietPlan.tips := diet_tips |}.

(** The worked example of the specification. *)
Definition worked_example : DietRequest.t :=
  diet_request 30 "male" 180 80 "moderate" "maintain".

Definition meal_item (name : string) (calories : float)
    (quantity : option float) : MealItem.t :=
  {| MealItem.name := name; MealItem.calories := calories;
     MealItem.quantity := quantity |}.

(** A meal of one item of 100 kcal, logged with quantity 0. *)
Definition zero_quantity_request : LogMealRequest.t :=
  {| LogMealRequest.user_id := "u1";
     LogMealRequest.date := "2024-01-01";
     LogMealRequest.items := [meal_item "rice" 100 (Some 0%float)];
     LogMealRequest.notes := None |}.


(** The [total_calories] fields stored in a collection of the store. *)
Definition stored_totals (w : World) (collection_name : string)
    : list (option value) :=
  match db w with
  | Some d => map (λ doc : document, doc !! "total_calories")
                (collection d collection_name)
  | None => []
  end.

(** The state after one more call of the document-access layer. *)
Definition after_call (c : store_call) (w : World) (d : option database)
    : World :=
  {| db := d; environ := environ w; store_calls := store_calls w ++ [c] |}.

Definition meal_log_of (payload : LogMealRequest.t) (total : float)
    : MealLog.t :=
  {| MealLog.user_id := LogMealRequest.user_id payload;
     MealLog.date := LogMealRequest.date payload;
     MealLog.items := LogMealRequest.items payload;
     MealLog.total_calories := total;
     MealLog.notes := LogMealRequest.notes payload |}.

Definition inserted (d : database) (collection_name : string)
    (doc : document) : database :=
  {| collections :=
       <[collection_name := (collection d collection_name ++ [doc])%list]>
         (collections d);
     store_fault := store_fault d;
     next_id := N.succ (next_id d) |}.

(** The filter [daily_summary] queries with. *)
Definition summary_filter (user_id date : string) : list (string * value) :=
  [("user_id", VStr user_id); ("date", VStr date)].

(** The MealLog documents of a store that match a user and a date. *)
Definition matching_logs (d : database) (user_id date : string)
    : list document :=
  List.filter (matches (summary_filter user_id date)) (collection d "meallog").

(** A document that holds a [total_calories] field. *)
Definition has_total (doc : document) : bool :=
  match doc !! "total_calories" with
  | Some _ => true
  | None => false
  end.

(** A document whose [total_calories] is a float, as [MealLog] stores it. *)
Definition total_is_float (doc : document) : Prop :=
  ∃ f, doc !! "total_calories" = Some (VFloat f).

(** A float that is neither negative nor the negative zero (NaN passes). *)
Definition sign_clear (x : float) : Prop :=
  match Prim2SF x with
  | S754_zero true | S754_finite true _ _ | S754_infinity true => False
  | _ => True
  end.

(** The store with the documents of one collection replaced. *)
Definition with_collection (d : database) (collection_name : string)
    (docs : list document) : database :=
  {| collections := <[collection_name := docs]> (collections d);
     store_fault := store_fault d;
     next_id := next_id d |}.

Definition with_db (w : World) (d : database) : World :=
  {| db := Some d; environ := environ w; store_calls := store_calls w |}.

Definition day_summary (date : string) (total : float) : DaySummary.t :=
  {| DaySummary.date := date; DaySummary.total_calories := total |}.

(** A log as [log_meal] stores it, and a legacy one without a total. *)
Definition stored_log (user_id date : string) (total : float) : document :=
  model_dump {| MealLog.user_id := user_id; MealLog.date := date;
                MealLog.items := []; MealLog.total_calories := total;
                MealLog.notes := None |}.

Definition legacy_log (user_id date : string) : document :=
  <["user_id" := VStr user_id]> (<["date" := VStr date]> ∅).

Definition sample_database : database :=
  {| collections :=
       <["meallog" := [stored_log "u1" "2024-01-01" 250;
                       legacy_log "u1" "2024-01-01";
                       stored_log "u1" "2024-01-01" 100;
                       stored_log "u2" "2024-01-01" 300]]> ∅;
     store_fault := None;
     next_id := 4 |}.

Definition sample_world : World :=
  {| db := Some sample_database; environ := ∅; store_calls := [] |}.

(** A parser of numerals that accepts nothing. *)
Definition no_numeral : string → outcome float :=
  λ _, Raised (ValueError "could not convert string to float").

(** ** The remaining handlers *)

Definition read_root : M (list (string * string)) :=
  ret [("message", "Fitness Coach Backend running")].

(** Simple reflection: the class names of the schemas file, lowercased. *)
Definition get_schema_definitions : M (list (string * list string)) :=
  ret [("collections", ["user"; "fooditem"; "meallog"; "exercise"])].





Definition with_sex (req : DietRequest.t) (sex : string) : DietRequest.t :=
  diet_request (DietRequest.age req) sex
    (DietRequest.height_cm req) (DietRequest.weight_kg req)
    (DietRequest.activity_level req) (DietRequest.goal req).


(** A [total_calories] that [float()] refuses: [None], a list or a dict. *)
Definition not_a_number (v : value) : Prop :=
  match v with
  | VNull | VList _ | VDict _ => True
  | _ => False
  end.

(** A state whose store can serve an operation. *)
Definition reachable (w : World) : Prop :=
  ∃ d, db w = Some d ∧ store_fault d = None.


(** A store that holds a log whose total is null. *)
Definition null_total_world : World :=
  {| db := Some {| collections :=
                     <["meallog" :=
                         [<["total_calories" := VNull]>
                            (legacy_log "u1" "2024-01-01")]]> ∅;
                   store_fault := None;
                   next_id := 1 |};
     environ := ∅;
     store_calls := [] |}.

(** * Properties *)

(** ** Strings *)

Lemma is_space_lower_char c : is_space (lower_char c) = is_space c.
Proof. destruct c as [[] [] [] [] [] [] [] []]; reflexivity. Qed.

Lemma lower_char_idem c : lower_char (lower_char c) = lower_char c.
Proof. destruct c as [[] [] [] [] [] [] [] []]; reflexivity. Qed.

Lemma lower_idem s : lower (lower s) = lower s.
Proof.
  induction s as [|c t IH]; simpl; [reflexivity|].
  now rewrite lower_char_idem, IH.
Qed.

Lemma lstrip_lower s : lstrip (lower s) = lower (lstrip s).
Proof.
  induction s as [|c t IH]; simpl; [reflexivity|].
  rewrite is_space_lower_char. now destruct (is_space c).
Qed.

Lemma rstrip_cons c t :
  rstrip (String c t) =
  match rstrip t with
  | EmptyString => if is_space c then EmptyString else String c EmptyString
  | t' => String c t'
  end.
Proof. reflexivity. Qed.

Lemma rstrip_lower s : rstrip (lower s) = lower (rstrip s).
Proof.
  induction s as [|c t IH]; [reflexivity|].
  change (lower (String c t)) with (String (lower_char c) (lower t)).
  rewrite !rstrip_cons, IH.
  destruct (rstrip t); simpl.
  - rewrite is_space_lower_char. now destruct (is_space c).
  - reflexivity.
Qed.

Lemma strip_lower s : strip (lower s) = lower (strip s).
Proof. unfold strip. now rewrite lstrip_lower, rstrip_lower. Qed.

Lemma lstrip_head s : head_not_space (lstrip s).
Proof.
  induction s as [|c t IH]; simpl; [exact I|].
  destruct (is_space c) eqn:E; [exact IH | exact E].
Qed.

Lemma lstrip_fixed s : head_not_space s → lstrip s = s.
Proof. destruct s as [|c t]; simpl; [reflexivity|]. now intros ->. Qed.

Lemma rstrip_head s : head_not_space s → head_not_space (rstrip s).
Proof.
  destruct s as [|c t]; [exact id|].
  rewrite rstrip_cons. simpl. intros E.
  destruct (rstrip t); simpl; [now rewrite E | exact E].
Qed.

Lemma rstrip_idem s : rstrip (rstrip s) = rstrip s.
Proof.
  induction s as [|c t IH]; [reflexivity|].
  rewrite rstrip_cons.
  destruct (rstrip t) as [|c' t'] eqn:E.
  - destruct (is_space c) eqn:Ec; [reflexivity|].
    simpl. now rewrite Ec.
  - rewrite rstrip_cons, IH. reflexivity.
Qed.

Lemma strip_idem s : strip (strip s) = strip s.
Proof.
  unfold strip.
  rewrite (lstrip_fixed (rstrip (lstrip s))).
  - apply rstrip_idem.
  - apply rstrip_head, lstrip_head.
Qed.

(** The handlers' normalisation of a name is idempotent. *)
Lemma normalise_idem s : lower (strip (lower (strip s))) = lower (strip s).
Proof. now rewrite strip_lower, strip_idem, lower_idem. Qed.

Lemma length_str_take n s : (String.length (str_take n s) <= n)%nat.
Proof.
  revert s; induction n as [|n IH]; intros [|c t]; simpl; try lia.
  specialize (IH t). lia.
Qed.

Lemma str_take_prefix n s : String.prefix (str_take n s) s = true.
Proof.
  revert s; induction n as [|n IH]; intros [|c t]; simpl; try reflexivity.
  rewrite IH. now destruct (ascii_dec c c).
Qed.

(** ** Exercise form guidance *)

Lemma form_library_lookup (name : string) :
  _form_library !! name =
  if decide ("squat" = name) then Some squat_entry
  else if decide ("push-up" = name) then Some push_up_entry
  else if decide ("deadlift" = name) then Some deadlift_entry
  else None.
Proof.
  unfold _form_library. rewrite !lookup_insert, lookup_empty. reflexivity.
Qed.

Lemma form_library_miss (name : string) :
  _form_library !! name = None ↔
  name ≠ "squat" ∧ name ≠ "push-up" ∧ name ≠ "deadlift".
Proof.
  rewrite form_library_lookup.
  repeat case_decide; subst; split; intros Hmiss; try discriminate;
    try reflexivity; try (repeat split; congruence);
    destruct Hmiss as (? & ? & ?); congruence.
Qed.

(** C5: [exercise_form] does not distinguish an input from its lowercased,
    trimmed form; "SQUAT", " squat " and "squat" all return the squat entry
    of the catalog. *)
Theorem exercise_form_normalisation_invariant :
  (∀ s w, exercise_form (form_request s) w
          = exercise_form (form_request (lower (strip s))) w)
  ∧ (∀ w, exercise_form (form_request "SQUAT") w
          = (Returned (form_response "squat" squat_entry), w)
        ∧ exercise_form (form_request " squat ") w
          = (Returned (form_response "squat" squat_entry), w)
        ∧ exercise_form (form_request "squat") w
          = (Returned (form_response "squat" squat_entry), w)).
Proof.
  split.
  - intros s w. unfold exercise_form, form_request. cbn [FormGuideRequest.exercise].
    now rewrite normalise_idem.
  - intros w. repeat split.
Qed.

(** C6: [exercise_form] raises the 404 error exactly when the lowercased,
    trimmed name is none of "squat", "push-up", "deadlift"; it raises no
    other error, the detail of the 404 names the three exercises, and on a
    hit the answer is the canonical name with the cue list and the mistake
    list of its catalog entry, in the catalog's order. *)
Theorem exercise_form_not_found_iff (s : string) (w : World) :
  let name := lower (strip s) in
  ((∃ detail, fst (exercise_form (form_request s) w)
              = Raised (HTTPException 404 detail))
   ↔ name ≠ "squat" ∧ name ≠ "push-up" ∧ name ≠ "deadlift")
  ∧ (∀ e, fst (exercise_form (form_request s) w) = Raised e →
          e = HTTPException 404 not_found_detail)
  ∧ (str_contains "squat" not_found_detail
     && str_contains "push-up" not_found_detail
     && str_contains "deadlift" not_found_detail = true)
  ∧ (name = "squat" →
     exercise_form (form_request s) w
     = (Returned (form_response "squat" squat_entry), w))
  ∧ (name = "push-up" →
     exercise_form (form_request s) w
     = (Returned (form_response "push-up" push_up_entry), w))
  ∧ (name = "deadlift" →
     exercise_form (form_request s) w
     = (Returned (form_response "deadlift" deadlift_entry), w))
  ∧ FormEntry.cues squat_entry
    = ["Feet shoulder-width, toes slightly out"; "Brace core, neutral spine";
       "Knees track over toes"; "Sit back and down until thighs are parallel"]
  ∧ FormEntry.mistakes squat_entry
    = ["Heels lifting"; "Knees collapsing in"; "Rounding the back"].
Proof.
  intros name. unfold exercise_form, form_request.
  cbn [FormGuideRequest.exercise]. fold name.
  split; [split|split; [|split; [|split; [|split; [|split; [|split]]]]]].
  - intros [detail Hraised]. apply form_library_miss.
    destruct (_form_library !! name); [discriminate|reflexivity].
  - intros Hmiss. apply form_library_miss in Hmiss. rewrite Hmiss. now eexists.
  - intros e. destruct (_form_library !! name); simpl; congruence.
  - reflexivity.
  - intros ->. reflexivity.
  - intros ->. reflexivity.
  - intros ->. reflexivity.
  - reflexivity.
  - reflexivity.
Qed.

(** ** Floating-point facts *)

Lemma SFcompare_Lt_asym x y :
  SFcompare x y = Some Lt → SFcompare y x = Some Gt.
Proof.
  destruct x as [sx|sx| |sx mx ex], y as [sy|sy| |sy my ey];
    cbn [SFcompare]; intros Hlt;
    repeat match goal with s : bool |- _ => destruct s end;
    try discriminate Hlt; try reflexivity.
  all: change (PosDef.Pos.compare_cont Eq my mx) with (Pos.compare my mx);
    change (PosDef.Pos.compare_cont Eq mx my) with (Pos.compare mx my) in Hlt;
    rewrite (Z.compare_antisym ex ey), (Pos.compare_antisym mx my);
    destruct (ex ?= ey); cbn [CompOpp] in *;
    try discriminate Hlt; try reflexivity;
    destruct (Pos.compare mx my); cbn [CompOpp] in *;
    try discriminate Hlt; reflexivity.
Qed.

Lemma ltb_asym x y : PrimFloat.ltb x y = true → PrimFloat.ltb y x = false.
Proof.
  rewrite !ltb_spec. unfold SFltb.
  destruct (SFcompare (Prim2SF x) (Prim2SF y)) as [[]|] eqn:E; try discriminate.
  intros _. now rewrite (SFcompare_Lt_asym _ _ E).
Qed.

(** A value below the floor is replaced by the floor. *)
Lemma py_max_floor a x : PrimFloat.ltb x a = true → py_max a x = a.
Proof. intros H. unfold py_max. now rewrite (ltb_asym _ _ H). Qed.

Lemma ages_multiplied :
  forallb (λ a, PrimFloat.Leibniz.eqb (float_of_int (5 * a))
                  (5 * float_of_int a)%float) ages = true.
Proof. vm_compute. reflexivity. Qed.

(** On the validated range of [age], multiplying before or after the
    conversion to [float] gives the same number. *)
Lemma float_of_int_5_age age :
  0 <= age <= 120 → float_of_int (5 * age) = (5 * float_of_int age)%float.
Proof.
  intros Hage.
  apply FloatAxioms.Leibniz.eqb_spec.
  refine (proj1 (forallb_forall _ ages) ages_multiplied age _).
  unfold ages. apply in_map_iff. exists (Z.to_nat age). split; [lia|].
  apply in_seq. lia.
Qed.

Lemma py_round_raises x e :
  py_round x = Raised e →
  (∃ msg, e = OverflowError msg) ∨ (∃ msg, e = ValueError msg).
Proof.
  unfold py_round. destruct (Prim2SF x); intros H; inversion H; eauto.
Qed.

(** ** Diet plan *)

Lemma decide_eqb {A} (a b : string) (x y : A) :
  (if decide (a = b) then x else y) = if String.eqb a b then x else y.
Proof.
  case_decide as E.
  - subst. now rewrite String.eqb_refl.
  - apply String.eqb_neq in E. now rewrite E.
Qed.

(** The dict [_activity_factors] is the table of the specification. *)
Lemma activity_factors_lookup (level : string) :
  _activity_factors !! level = assoc level spec_activity_table.
Proof.
  unfold _activity_factors. rewrite !lookup_insert, lookup_empty.
  rewrite !decide_eqb. reflexivity.
Qed.

Lemma activity_recognised_iff req :
  activity_recognised req ↔
  is_Some (_activity_factors !! DietRequest.activity_level req).
Proof.
  unfold activity_recognised. rewrite activity_factors_lookup.
  generalize (DietRequest.activity_level req) as level. intros level.
  unfold spec_activity_table, assoc. split.
  - intros Hin. simpl in Hin.
    destruct Hin as [<-|[<-|[<-|[<-|[<-|[]]]]]]; now eexists.
  - intros [f Hf]. simpl.
    repeat match type of Hf with
      | (if String.eqb ?k level then _ else _) = _ =>
          destruct (String.eqb_spec k level); [tauto|]
      end.
    discriminate.
Qed.

Lemma sex_recognised_iff req :
  sex_recognised req ↔
  existsb (String.eqb (lower (DietRequest.sex req))) ["male"; "female"] = true.
Proof.
  unfold sex_recognised. cbn [existsb].
  rewrite !orb_true_iff, !String.eqb_eq. intuition discriminate.
Qed.

(** On a recognised request the handler returns the plan of the
    specification's target, and leaves the process state as it was. *)
Lemma diet_plan_recognised req w factor :
  0 <= DietRequest.age req <= 120 →
  sex_recognised req →
  assoc (DietRequest.activity_level req) spec_activity_table = Some factor →
  diet_plan req w = (spec_plan (spec_target req factor), w).
Proof.
  intros Hage Hsex Hfactor. unfold diet_plan.
  rewrite (proj1 (sex_recognised_iff req) Hsex). cbn [negb].
  rewrite activity_factors_lookup, Hfactor.
  rewrite (float_of_int_5_age _ Hage).
  fold (spec_bmr (lower (DietRequest.sex req)) (DietRequest.weight_kg req)
          (DietRequest.height_cm req) (DietRequest.age req)).
  fold (spec_adjust (DietRequest.goal req)
          (spec_bmr (lower (DietRequest.sex req)) (DietRequest.weight_kg req)
             (DietRequest.height_cm req) (DietRequest.age req) * factor)%float).
  fold (spec_adjusted req factor). fold (spec_target req factor).
  unfold spec_plan, bind, lift, ret.
  repeat match goal with
    | |- context [py_round ?x] => destruct (py_round x)
    end; reflexivity.
Qed.

(** C2: on every valid, recognised request the plan's [target_calories] is
    the rounding of max(1200, adjust(BMR * factor)), with the Mifflin-St
    Jeor BMR, the table's factor and the goal adjustment of the
    specification; a plan is returned exactly when the roundings of the
    target and of the three macro quotients are defined (the numbers are
    finite); and a goal-adjusted expenditure below 1200 gives a target of
    exactly 1200. *)
Theorem diet_plan_target_calories req w factor :
  valid_DietRequest req →
  sex_recognised req →
  assoc (DietRequest.activity_level req) spec_activity_table = Some factor →
  let target := spec_target req factor in
  (∀ plan, fst (diet_plan req w) = Returned plan →
           py_round target = Returned (DietPlan.target_calories plan))
  ∧ ((∃ plan, fst (diet_plan req w) = Returned plan) ↔
     is_Returned (py_round target)
     && is_Returned (py_round (0.30 * target / 4)%float)
     && is_Returned (py_round (0.40 * target / 4)%float)
     && is_Returned (py_round (0.30 * target / 9)%float) = true)
  ∧ (PrimFloat.ltb (spec_adjusted req factor) 1200 = true →
     target = 1200%float
     ∧ diet_plan req w = (Returned (diet_plan_of 1200 90 120 40), w)).
Proof.
  intros [Hage _] Hsex Hfactor target.
  rewrite (diet_plan_recognised req w factor Hage Hsex Hfactor).
  fold target. cbn [fst]. unfold spec_plan.
  split; [|split].
  - intros plan.
    repeat match goal with
      | |- context [py_round ?x] => destruct (py_round x)
      end; intros H; inversion H; reflexivity.
  - repeat match goal with
      | |- context [py_round ?x] => destruct (py_round x)
      end; cbn [is_Returned andb]; split; intros H;
      try discriminate H; try reflexivity;
      try (now destruct H); now eexists.
  - intros Hlow.
    assert (target = 1200%float) as -> by (apply py_max_floor, Hlow).
    split; reflexivity.
Qed.

Lemma diet_plan_target_calories_witness :
  py_round (spec_target worked_example 1.55) = Returned 2759.
Proof.
  refine (proj1 (diet_plan_target_calories worked_example fresh_world
                   1.55%float _ _ _) (diet_plan_of 2759 207 276 92) _).
  - unfold valid_DietRequest. cbn. repeat split; (lia || reflexivity).
  - left. reflexivity.
  - reflexivity.
  - vm_compute. reflexivity.
Defined.

(** A weight whose tenfold is no longer a finite float passes the field
    constraints, and the rounding of the target then raises. *)
Example diet_plan_overflow :
  valid_DietRequest (diet_request 30 "male" 180 1e308 "moderate" "maintain")
  ∧ fst (diet_plan (diet_request 30 "male" 180 1e308 "moderate" "maintain")
           fresh_world)
    = Raised (OverflowError "cannot convert float infinity to integer").
Proof.
  split; [|reflexivity].
  unfold valid_DietRequest. cbn. repeat split; (lia || reflexivity).
Qed.

(** C3 (as stated, refuted): the worked example of the specification does
    not give the plan stated there (2933, 220, 293, 98). *)
Lemma worked_example_is_not_2933 :
  ¬ ∃ plan, fst (diet_plan worked_example fresh_world) = Returned plan
            ∧ DietPlan.target_calories plan = 2933
            ∧ DietPlan.protein_g plan = 220
            ∧ DietPlan.carbs_g plan = 293
            ∧ DietPlan.fat_g plan = 98.
Proof.
  intros (plan & Hplan & Htarget & _).
  vm_compute in Hplan. injection Hplan as <-.
  discriminate Htarget.
Qed.

(** C3 (amended): on every valid, recognised request the macro grams are
    the roundings of 0.30*target/4, 0.40*target/4 and 0.30*target/9 for the
    unrounded, clamped target; the worked example (age 30, male, 180 cm,
    80 kg, moderate, maintain) has BMR 1780 and yields target_calories 2759,
    protein_g 207, carbs_g 276 and fat_g 92. *)
Theorem diet_plan_macros req w factor :
  valid_DietRequest req →
  sex_recognised req →
  assoc (DietRequest.activity_level req) spec_activity_table = Some factor →
  let target := spec_target req factor in
  (∀ plan, fst (diet_plan req w) = Returned plan →
           py_round (0.30 * target / 4)%float
           = Returned (DietPlan.protein_g plan)
           ∧ py_round (0.40 * target / 4)%float
             = Returned (DietPlan.carbs_g plan)
           ∧ py_round (0.30 * target / 9)%float
             = Returned (DietPlan.fat_g plan))
  ∧ spec_bmr "male" 80 180 30 = 1780%float
  ∧ diet_plan worked_example w
    = (Returned (diet_plan_of 2759 207 276 92), w).
Proof.
  intros [Hage _] Hsex Hfactor target.
  rewrite (diet_plan_recognised req w factor Hage Hsex Hfactor).
  fold target. cbn [fst]. unfold spec_plan.
  split; [|split].
  - intros plan.
    repeat match goal with
      | |- context [py_round ?x] => destruct (py_round x)
      end; intros H; inversion H; repeat split.
  - vm_compute. reflexivity.
  - rewrite (diet_plan_recognised worked_example w 1.55%float);
      [|cbn; lia|left; reflexivity|reflexivity].
    reflexivity.
Qed.

Lemma diet_plan_macros_witness :
  py_round (0.30 * spec_target worked_example 1.55 / 4)%float = Returned 207.
Proof.
  refine (proj1 (proj1 (diet_plan_macros worked_example fresh_world
                   1.55%float _ _ _) (diet_plan_of 2759 207 276 92) _)).
  - unfold valid_DietRequest. cbn. repeat split; (lia || reflexivity).
  - left. reflexivity.
  - reflexivity.
  - vm_compute. reflexivity.
Defined.

Lemma lift_py_round_not_http {A} x (k : Z → M A) w status detail :
  (∀ n w', fst (k n w') ≠ Raised (HTTPException status detail)) →
  fst (bind (lift (py_round x)) k w) ≠ Raised (HTTPException status detail).
Proof.
  intros Hk. unfold bind, lift.
  destruct (py_round x) as [n|e] eqn:E; [apply Hk|].
  cbn [fst]. intros H. inversion H; subst.
  destruct (py_round_raises _ _ E) as [[msg Hmsg]|[msg Hmsg]]; discriminate.
Qed.

(** The roundings that end [diet_plan] raise no HTTP error. *)
Ltac roundings_raise_no_http :=
  cbv zeta; repeat (apply lift_py_round_not_http; intros); discriminate.

(** C4: [diet_plan] raises a client error (an HTTP error, always with status
    400) exactly when the lowercased sex is neither "male" nor "female" or
    the activity level is none of the five recognised ones; sex "other" and
    activity level "extreme" are rejected whatever the other fields hold;
    and a goal other than "lose" and "gain" gives what "maintain" gives. *)
Theorem diet_plan_client_error_iff req w :
  ((∃ status detail,
      fst (diet_plan req w) = Raised (HTTPException status detail))
   ↔ ¬ sex_recognised req ∨ ¬ activity_recognised req)
  ∧ (∀ status detail,
       fst (diet_plan req w) = Raised (HTTPException status detail) →
       status = 400)
  ∧ (DietRequest.sex req = "other" →
     diet_plan req w
     = (Raised (HTTPException 400 "sex must be 'male' or 'female'"), w))
  ∧ (DietRequest.activity_level req = "extreme" →
     ∃ detail, diet_plan req w = (Raised (HTTPException 400 detail), w))
  ∧ (∀ goal, goal ≠ "lose" → goal ≠ "gain" →
       diet_plan (with_goal req goal) w
       = diet_plan (with_goal req "maintain") w).
Proof.
  split; [split|split; [|split; [|split]]].
  - intros (status & detail & Hraise). unfold diet_plan in Hraise.
    destruct (existsb _ _) eqn:Hsex in Hraise.
    + right. rewrite activity_recognised_iff.
      destruct (_activity_factors !! _) as [factor|] eqn:Hf in Hraise.
      * exfalso. revert Hraise. roundings_raise_no_http.
      * rewrite Hf. now intros [? ?].
    + left. rewrite sex_recognised_iff, Hsex. discriminate.
  - intros Hbad. unfold diet_plan.
    destruct (existsb _ _) eqn:Hsex; [|now eexists _, _].
    destruct Hbad as [Hbad|Hbad].
    + exfalso. apply Hbad. now apply sex_recognised_iff.
    + rewrite activity_recognised_iff in Hbad.
      destruct (_activity_factors !! _) as [factor|] eqn:Hf.
      * exfalso. apply Hbad. now eexists.
      * now eexists _, _.
  - intros status detail. unfold diet_plan.
    destruct (existsb _ _) eqn:Hsex; cbn [negb].
    + destruct (_activity_factors !! _) as [factor|] eqn:Hf.
      * intros Hraise. exfalso. revert Hraise. roundings_raise_no_http.
      * intros Hraise. now inversion Hraise.
    + intros Hraise. now inversion Hraise.
  - intros Hother. unfold diet_plan. rewrite Hother. reflexivity.
  - intros Hextreme. unfold diet_plan. rewrite Hextreme.
    destruct (existsb _ _); cbn [negb]; [|now eexists].
    rewrite activity_factors_lookup. now eexists.
  - intros goal Hlose Hgain. unfold diet_plan, with_goal, diet_request.
    cbn [DietRequest.sex DietRequest.goal DietRequest.age
         DietRequest.height_cm DietRequest.weight_kg
         DietRequest.activity_level].
    apply String.eqb_neq in Hlose, Hgain. rewrite Hlose, Hgain.
    reflexivity.
Qed.

(** C8: [diet_plan] leaves the process state as it was, the store and the
    trace of store calls included, whatever it returns or raises; its answer
    does not depend on that state; and the tips of a returned plan are the
    same three fixed strings on every call. *)
Theorem diet_plan_pure req w :
  snd (diet_plan req w) = w
  ∧ db (snd (diet_plan req w)) = db w
  ∧ store_calls (snd (diet_plan req w)) = store_calls w
  ∧ (∀ w', fst (diet_plan req w') = fst (diet_plan req w))
  ∧ (∀ plan, fst (diet_plan req w) = Returned plan →
       DietPlan.tips plan
       = ["Aim for whole foods: lean protein, veggies, fruits, whole grains";
          "Drink enough water (2-3L/day)";
          "Prioritize protein in each meal"])
  ∧ length diet_tips = 3%nat.
Proof.
  assert (Hpure : ∀ w0, ∃ o, diet_plan req w0 = (o, w0)
      ∧ o = fst (diet_plan req w)
      ∧ ∀ plan, o = Returned plan → DietPlan.tips plan = diet_tips).
  { intros w0. unfold diet_plan.
    destruct (negb _); [eexists; split; [reflexivity|split; [reflexivity|discriminate]]|].
    destruct (_activity_factors !! _) as [factor|];
      [|eexists; split; [reflexivity|split; [reflexivity|discriminate]]].
    unfold bind, lift, ret.
    repeat match goal with
      | |- context [py_round ?x] => destruct (py_round x)
      end;
      (eexists; split; [reflexivity|split; [reflexivity|]]);
      intros plan Hplan; inversion Hplan; reflexivity. }
  destruct (Hpure w) as (o & Hrun & Ho & Htips).
  rewrite Hrun. cbn [fst snd].
  repeat split; try reflexivity.
  - intros w'. destruct (Hpure w') as (o' & Hrun' & Ho' & _).
    rewrite Hrun'. cbn [fst]. rewrite Ho'. now rewrite Hrun.
  - intros plan Hplan. now apply Htips.
Qed.

(** ** Meal logging *)

(** What [log_meal] does on a reachable store when the total passes the
    check of [MealLog]: one document holding the total is appended to
    "meallog", and the same total is returned with the new identifier. *)
Lemma log_meal_run payload w d :
  db w = Some d → store_fault d = None →
  let total := py_sum (map item_calories (LogMealRequest.items payload)) in
  PrimFloat.leb 0 total = true →
  log_meal payload w
  = (Returned {| LogMealResponse.log_id := render_id (next_id d);
                 LogMealResponse.total_calories := total |},
     after_call (InsertOne "meallog") w
       (Some (inserted d "meallog" (model_dump (meal_log_of payload total))))).
Proof.
  intros Hdb Hfault total Htotal.
  unfold log_meal, MealLog_init. fold total. rewrite Htotal.
  unfold bind, lift, create_document, bind, record_call, connected, set_db, ret.
  cbn [db environ store_calls]. rewrite Hdb, Hfault. reflexivity.
Qed.



(** An empty meal still creates a log, with total 0. *)
Lemma log_meal_empty uid date notes :
  let payload := {| LogMealRequest.user_id := uid;
                    LogMealRequest.date := date;
                    LogMealRequest.items := [];
                    LogMealRequest.notes := notes |} in
  fst (log_meal payload fresh_world)
  = Returned {| LogMealResponse.log_id := "0";
                LogMealResponse.total_calories := 0 |}
  ∧ stored_totals (snd (log_meal payload fresh_world)) "meallog"
    = [Some (VFloat 0)].
Proof.
  intros payload.
  rewrite (log_meal_run payload fresh_world empty_database);
    [split| | |]; reflexivity.
Qed.

(** C1 (the code at the failing input): an item of 100 kcal logged with
    quantity 0 is counted once, and the total 100 is returned and stored,
    where the sum of calories times quantity is 0. *)
Theorem log_meal_zero_quantity_counts_as_one :
  fst (log_meal zero_quantity_request fresh_world)
  = Returned {| LogMealResponse.log_id := "0";
                LogMealResponse.total_calories := 100 |}
  ∧ stored_totals (snd (log_meal zero_quantity_request fresh_world)) "meallog"
    = [Some (VFloat 100)]
  ∧ spec_meal_total (LogMealRequest.items zero_quantity_request) = 0%float.
Proof.
  rewrite (log_meal_run zero_quantity_request fresh_world empty_database);
    [split; [|split]| | |]; reflexivity.
Qed.

(** ** Floating-point sums *)

Lemma add_zero_r x :
  Prim2SF x ≠ S754_zero true → (x + 0)%float = x.
Proof.
  intros Hx. apply Prim2SF_inj. rewrite add_spec.
  change (Prim2SF 0) with (S754_zero false).
  destruct (Prim2SF x) as [[]|[]| |[] m e]; try reflexivity.
  now destruct Hx.
Qed.

Lemma sign_clear_not_neg_zero x : sign_clear x → Prim2SF x ≠ S754_zero true.
Proof. unfold sign_clear. intros H E. now rewrite E in H. Qed.

Lemma binary_round_sign_clear m e :
  match binary_round prec emax false m e with
  | S754_zero true | S754_finite true _ _ | S754_infinity true => False
  | _ => True
  end.
Proof.
  unfold binary_round.
  destruct (shl_align _ _ _) as [mz ez].
  unfold binary_round_aux.
  destruct (shr_fexp _ _ _ _ _) as [mrs' e'].
  destruct (shr_fexp _ _ _ _ _) as [mrs'' e''].
  destruct (shr_m mrs''); try exact I.
  now destruct (_ <=? _)%Z.
Qed.

(** Adding a number that is at least 0 keeps the sign bit clear. *)
Lemma sign_clear_add x y :
  sign_clear x → PrimFloat.leb 0 y = true → sign_clear (x + y)%float.
Proof.
  unfold sign_clear. rewrite leb_spec, add_spec.
  change (Prim2SF 0) with (S754_zero false).
  unfold SF64add, SFadd, SFleb.
  destruct (Prim2SF x) as [[]|[]| |[] mx ex]; try contradiction; intros _;
    destruct (Prim2SF y) as [[]|[]| |[] my ey]; cbn [SFcompare Bool.eqb];
    intros Hy; try discriminate Hy; try exact I.
  cbn [cond_Zopp Z.add]. unfold binary_normalize.
  apply binary_round_sign_clear.
Qed.

Lemma sign_clear_zero : sign_clear 0.
Proof. exact I. Qed.

(** ** Daily summary *)

Section DailySummaryProperties.

Variable float_of_str : string → outcome float.

Lemma daily_summary_run w d user_id date :
  db w = Some d → store_fault d = None →
  daily_summary float_of_str user_id date w
  = (match add_totals float_of_str (matching_logs d user_id date) 0 with
     | Returned total => Returned (day_summary date total)
     | Raised e => Raised e
     end,
     after_call (Find "meallog") w (Some d)).
Proof.
  intros Hdb Hfault.
  unfold daily_summary, bind, get_documents, bind, record_call, connected,
    lift, ret.
  cbn [db environ store_calls]. rewrite Hdb, Hfault.
  fold (summary_filter user_id date). fold (matching_logs d user_id date).
  unfold after_call.
  now destruct (add_totals _ _ _).
Qed.

(** The loop adds 0 for a document without the field and the stored float
    for a document that holds one. *)
Lemma add_totals_stored docs total :
  Forall (λ doc, has_total doc = false ∨ total_is_float doc) docs →
  add_totals float_of_str docs total
  = Returned (fold_left PrimFloat.add (map stored_total docs) total).
Proof.
  intros Hdocs. revert total.
  induction Hdocs as [|doc rest Hdoc _ IH]; intros total; [reflexivity|].
  cbn [add_totals map fold_left]. unfold dict_get, stored_total.
  unfold has_total, total_is_float in Hdoc.
  destruct Hdoc as [Hdoc|[f Hdoc]].
  - destruct (doc !! "total_calories"); [discriminate|].
    cbn [py_float]. apply IH.
  - rewrite Hdoc. cbn [py_float]. apply IH.
Qed.

Lemma matches_insert_items user_id date (doc : document) v :
  matches (summary_filter user_id date) (<["items" := v]> doc)
  = matches (summary_filter user_id date) doc.
Proof.
  unfold matches, summary_filter. cbn [forallb fst snd].
  now rewrite !lookup_insert_ne by discriminate.
Qed.

Lemma add_totals_insert_items (g : document → value) docs total :
  add_totals float_of_str
    (map (λ doc : document, <["items" := g doc]> doc) docs) total
  = add_totals float_of_str docs total.
Proof.
  revert total. induction docs as [|doc rest IH]; intros total; [reflexivity|].
  cbn [map add_totals]. unfold dict_get.
  rewrite lookup_insert_ne by discriminate.
  destruct (py_float _ _); [apply IH|reflexivity].
Qed.

Lemma filter_map_commute {A} (p : A → bool) (g : A → A) l :
  (∀ x, p (g x) = p x) →
  List.filter p (map g l) = map g (List.filter p l).
Proof.
  intros Hp. induction l as [|x l IH]; [reflexivity|].
  cbn [map List.filter]. rewrite Hp, IH. now destruct (p x).
Qed.

Lemma collection_with_collection d name docs :
  collection (with_collection d name docs) name = docs.
Proof.
  unfold collection, with_collection. cbn [collections].
  now rewrite lookup_insert_eq.
Qed.

(** C7: on a reachable store, [daily_summary] returns the date with the sum,
    in store order, of the [total_calories] stored in the MealLog documents
    that match the user and the date; the total is 0 when none matches; and
    the item lists of the documents have no part in it. *)
Theorem daily_summary_sums_stored_totals w d user_id date :
  db w = Some d → store_fault d = None →
  (Forall total_is_float (matching_logs d user_id date) →
   fst (daily_summary float_of_str user_id date w)
   = Returned (day_summary date
       (fold_left PrimFloat.add
          (map stored_total (matching_logs d user_id date)) 0%float)))
  ∧ (matching_logs d user_id date = [] →
     fst (daily_summary float_of_str user_id date w)
     = Returned (day_summary date 0))
  ∧ (∀ g : document → value,
       fst (daily_summary float_of_str user_id date
              (with_db w
                 (with_collection d "meallog"
                    (map (λ doc : document, <["items" := g doc]> doc)
                       (collection d "meallog")))))
       = fst (daily_summary float_of_str user_id date w)).
Proof using Type.
  intros Hdb Hfault.
  rewrite (daily_summary_run w d user_id date Hdb Hfault). cbn [fst].
  split; [|split].
  - intros Hdocs. rewrite add_totals_stored; [reflexivity|].
    eapply Forall_impl; [exact Hdocs|]. intros doc Hdoc. now right.
  - intros ->. reflexivity.
  - intros g.
    erewrite (daily_summary_run (with_db w _) (with_collection d "meallog" _)
                user_id date); [|reflexivity|exact Hfault].
    cbn [fst]. unfold matching_logs.
    rewrite collection_with_collection.
    rewrite filter_map_commute by (intros doc; apply matches_insert_items).
    now rewrite add_totals_insert_items.
Qed.

Lemma fold_totals_skip_missing docs total :
  sign_clear total →
  Forall (λ doc, PrimFloat.leb 0 (stored_total doc) = true) docs →
  Forall (λ doc, has_total doc = false ∨ total_is_float doc) docs →
  fold_left PrimFloat.add (map stored_total docs) total
  = fold_left PrimFloat.add
      (map stored_total (List.filter has_total docs)) total.
Proof.
  intros Htotal Hge Hdocs. revert total Htotal.
  induction Hdocs as [|doc rest Hdoc _ IH]; intros total Htotal;
    [reflexivity|].
  inversion Hge as [|? ? Hdoc_ge Hrest_ge]; subst.
  cbn [map fold_left List.filter].
  destruct Hdoc as [Hmissing|[f Hf]].
  - rewrite Hmissing.
    assert (stored_total doc = 0%float) as ->.
    { unfold stored_total. unfold has_total in Hmissing.
      now destruct (doc !! "total_calories"). }
    rewrite add_zero_r by now apply sign_clear_not_neg_zero.
    now apply IH.
  - assert (has_total doc = true) as ->
      by (unfold has_total; now rewrite Hf).
    cbn [map fold_left]. apply IH; [exact Hrest_ge|].
    now apply sign_clear_add.
Qed.

(** C10: a matching document without a [total_calories] field is read as 0:
    it raises no error and adds 0.0 to the sum; and among documents whose
    stored totals satisfy the schema ([>= 0]) the total is the one of the
    documents that hold the field. *)
Theorem daily_summary_missing_total_counts_zero w d user_id date :
  db w = Some d → store_fault d = None →
  Forall (λ doc, has_total doc = false ∨ total_is_float doc)
    (matching_logs d user_id date) →
  (∀ doc, has_total doc = false →
     py_float float_of_str (dict_get doc "total_calories" (VInt 0))
     = Returned 0%float
     ∧ stored_total doc = 0%float)
  ∧ fst (daily_summary float_of_str user_id date w)
    = Returned (day_summary date
        (fold_left PrimFloat.add
           (map stored_total (matching_logs d user_id date)) 0%float))
  ∧ (Forall (λ doc, PrimFloat.leb 0 (stored_total doc) = true)
       (matching_logs d user_id date) →
     fst (daily_summary float_of_str user_id date w)
     = Returned (day_summary date
         (fold_left PrimFloat.add
            (map stored_total
               (List.filter has_total (matching_logs d user_id date)))
            0%float))).
Proof using Type.
  intros Hdb Hfault Hdocs.
  rewrite (daily_summary_run w d user_id date Hdb Hfault). cbn [fst].
  rewrite (add_totals_stored _ _ Hdocs).
  split; [|split].
  - intros doc Hmissing. unfold dict_get, stored_total.
    unfold has_total in Hmissing.
    destruct (doc !! "total_calories"); [discriminate|]. now split.
  - reflexivity.
  - intros Hge. f_equal. f_equal.
    apply fold_totals_skip_missing; [exact sign_clear_zero|exact Hge|exact Hdocs].
Qed.

End DailySummaryProperties.

(** ** Diagnostics *)

(** C9: [test_database] always returns its report and never raises: the
    report lists at most 10 collections, and when the probe of the store
    raises, the report carries the first 50 characters at most of the error
    message instead. *)
Theorem test_database_never_raises w :
  ∃ r, fst (test_database w) = Returned r
    ∧ (length (Diagnostics.collections r) <= 10)%nat
    ∧ (∀ d msg, db w = Some d → store_fault d = Some msg →
         Diagnostics.database r = probe_error_prefix ++ str_take 50 msg
         ∧ (String.length (str_take 50 msg) <= 50)%nat
         ∧ String.prefix (str_take 50 msg) msg = true
         ∧ Diagnostics.collections r = [])
    ∧ (∀ d, db w = Some d → store_fault d = None →
         Diagnostics.database r = "✅ Connected & Working"
         ∧ Diagnostics.collections r
           = take 10 (map fst (map_to_list (collections d))))
    ∧ (db w = None →
         Diagnostics.database r = "⚠️  Available but not initialized"
         ∧ Diagnostics.collections r = []).
Proof.
  unfold test_database, try_except, bind, getenv, list_collection_names,
    bind, record_call, raise, ret.
  destruct (db w) as [d|]; [destruct (store_fault d) as [msg|] eqn:Hd|];
    cbn [fst snd]; eexists; (split; [reflexivity|]);
    cbn [with_database with_collections Diagnostics.collections
         Diagnostics.database str_exn].
  - split; [cbn; lia|]. split; [|split]; try discriminate.
    + intros d' msg' [= <-] Hfault. rewrite Hd in Hfault.
      injection Hfault as <-.
      split; [reflexivity|]. split; [apply length_str_take|].
      split; [apply str_take_prefix|reflexivity].
    + intros d' [= <-] Hfault. rewrite Hd in Hfault. discriminate Hfault.
  - split; [rewrite length_take; lia|]. split; [|split]; try discriminate.
    + intros d' msg' [= <-] Hfault. rewrite Hd in Hfault. discriminate Hfault.
    + intros d' [= <-] _. split; reflexivity.
  - split; [cbn; lia|]. split; [|split]; try discriminate.
    intros _. split; reflexivity.
Qed.

Lemma daily_summary_sums_stored_totals_witness :
  fst (daily_summary no_numeral "u2" "2024-01-01" sample_world)
  = Returned (day_summary "2024-01-01" 300).
Proof.
  refine (eq_trans
    (proj1 (daily_summary_sums_stored_totals no_numeral sample_world
              sample_database "u2" "2024-01-01" eq_refl eq_refl) _) _).
  - change (matching_logs sample_database "u2" "2024-01-01")
      with [stored_log "u2" "2024-01-01" 300].
    constructor; [|constructor]. exists 300%float. reflexivity.
  - reflexivity.
Defined.

Lemma daily_summary_missing_total_counts_zero_witness :
  fst (daily_summary no_numeral "u1" "2024-01-01" sample_world)
  = Returned (day_summary "2024-01-01" 350).
Proof.
  refine (eq_trans
    (proj1 (proj2 (daily_summary_missing_total_counts_zero no_numeral
              sample_world sample_database "u1" "2024-01-01"
              eq_refl eq_refl _))) _).
  - change (matching_logs sample_database "u1" "2024-01-01")
      with [stored_log "u1" "2024-01-01" 250; legacy_log "u1" "2024-01-01";
            stored_log "u1" "2024-01-01" 100].
    constructor; [right; exists 250%float; reflexivity|].
    constructor; [left; reflexivity|].
    constructor; [right; exists 100%float; reflexivity|].
    constructor.
  - reflexivity.
Defined.

(** * Further properties of the handlers *)

(** ** What [log_meal] does to the store *)

Lemma collection_inserted_eq d name doc :
  collection (inserted d name doc) name = (collection d name ++ [doc])%list.
Proof.
  unfold collection at 1, inserted. cbn [collections].
  now rewrite lookup_insert_eq.
Qed.

Lemma collection_inserted_ne d name doc other :
  other ≠ name → collection (inserted d name doc) other = collection d other.
Proof.
  intros Hne. unfold collection, inserted. cbn [collections].
  now rewrite lookup_insert_ne by congruence.
Qed.

(** The fields [daily_summary] reads back from a stored log. *)
Lemma model_dump_fields payload total :
  let doc : document := model_dump (meal_log_of payload total) in
  doc !! "user_id" = Some (VStr (LogMealRequest.user_id payload))
  ∧ doc !! "date" = Some (VStr (LogMealRequest.date payload))
  ∧ doc !! "total_calories" = Some (VFloat total).
Proof.
  unfold model_dump, MealLog_BaseModel, meal_log_of.
  cbn [MealLog.user_id MealLog.date MealLog.total_calories].
  cbv zeta. split; [|split].
  - now rewrite lookup_insert_eq.
  - rewrite lookup_insert_ne by discriminate. now rewrite lookup_insert_eq.
  - do 3 (rewrite lookup_insert_ne by discriminate).
    now rewrite lookup_insert_eq.
Qed.

(** The three ways [log_meal] can end. *)
Lemma log_meal_cases payload w :
  let total := py_sum (map item_calories (LogMealRequest.items payload)) in
  let doc : document := model_dump (meal_log_of payload total) in
  (PrimFloat.leb 0 total = false
   ∧ ∃ msg, log_meal payload w = (Raised (ValidationError msg), w))
  ∨ (PrimFloat.leb 0 total = true
     ∧ ¬ reachable w
     ∧ ∃ msg, log_meal payload w
              = (Raised (StorageError msg),
                 after_call (InsertOne "meallog") w (db w)))
  ∨ (PrimFloat.leb 0 total = true
     ∧ ∃ d, db w = Some d ∧ store_fault d = None
        ∧ log_meal payload w
          = (Returned {| LogMealResponse.log_id := render_id (next_id d);
                         LogMealResponse.total_calories := total |},
             after_call (InsertOne "meallog") w
               (Some (inserted d "meallog" doc)))).
Proof.
  intros total doc.
  destruct (PrimFloat.leb 0 total) eqn:Htotal.
  - right.
    destruct (db w) as [d|] eqn:Hdb;
      [destruct (store_fault d) as [msg|] eqn:Hfault|].
    + left. split; [reflexivity|]. split.
      * intros (d' & Hd' & Hfault'). congruence.
      * exists msg. unfold log_meal, MealLog_init. fold total.
        rewrite Htotal.
        unfold bind, lift, create_document, bind, record_call, connected, ret.
        cbn [db environ store_calls]. rewrite Hdb, Hfault. reflexivity.
    + right. split; [reflexivity|]. exists d. split; [reflexivity|].
      split; [exact Hfault|].
      now apply log_meal_run.
    + left. split; [reflexivity|]. split.
      * intros (d' & Hd' & _). congruence.
      * exists not_available. unfold log_meal, MealLog_init. fold total.
        rewrite Htotal.
        unfold bind, lift, create_document, bind, record_call, connected, ret.
        cbn [db environ store_calls]. rewrite Hdb. reflexivity.
  - left. split; [reflexivity|]. eexists.
    unfold log_meal, MealLog_init. fold total. rewrite Htotal.
    reflexivity.
Qed.

(** X1: [log_meal] is all or nothing.  When it returns, the store was
    reachable, the total passed the check [>= 0], exactly one document was
    appended to "meallog" (holding the request's user, date and the returned
    total) and every other collection is as before; when it raises, the
    store is as before, and a validation error is raised before any store
    call. *)
Theorem log_meal_all_or_nothing payload w :
  let total := py_sum (map item_calories (LogMealRequest.items payload)) in
  let doc : document := model_dump (meal_log_of payload total) in
  let w' := snd (log_meal payload w) in
  environ w' = environ w
  ∧ match fst (log_meal payload w) with
    | Returned r =>
        LogMealResponse.total_calories r = total
        ∧ PrimFloat.leb 0 total = true
        ∧ doc !! "user_id" = Some (VStr (LogMealRequest.user_id payload))
        ∧ doc !! "date" = Some (VStr (LogMealRequest.date payload))
        ∧ doc !! "total_calories" = Some (VFloat total)
        ∧ ∃ d d', db w = Some d ∧ store_fault d = None ∧ db w' = Some d'
            ∧ collection d' "meallog"
              = (collection d "meallog" ++ [doc])%list
            ∧ ∀ other, other ≠ "meallog" →
                collection d' other = collection d other
    | Raised e =>
        db w' = db w
        ∧ ((∃ msg, e = ValidationError msg)
           ∧ store_calls w' = store_calls w
           ∨ (∃ msg, e = StorageError msg)
             ∧ store_calls w' = (store_calls w ++ [InsertOne "meallog"])%list)
    end.
Proof.
  intros total doc w'. subst w'.
  destruct (log_meal_cases payload w)
    as [(Htotal & msg & Hrun)|[(Htotal & _ & msg & Hrun)
                               |(Htotal & d & Hdb & Hfault & Hrun)]];
    fold total in Htotal; rewrite Hrun; cbn [fst snd after_call environ db
                                             store_calls].
  - split; [reflexivity|]. split; [reflexivity|]. left. split; eauto.
  - split; [reflexivity|]. split; [reflexivity|]. right. split; eauto.
  - split; [reflexivity|]. split; [reflexivity|]. split; [exact Htotal|].
    destruct (model_dump_fields payload total) as (Hu & Hd & Ht).
    split; [exact Hu|]. split; [exact Hd|]. split; [exact Ht|].
    exists d, (inserted d "meallog" doc).
    split; [exact Hdb|]. split; [exact Hfault|]. split; [reflexivity|].
    split; [apply collection_inserted_eq|].
    intros other Hother. now apply collection_inserted_ne.
Qed.

(** ** [log_meal] and [daily_summary] together *)

Section LogAndSummary.

Variable float_of_str : string → outcome float.



Lemma daily_summary_outcome w d user_id date :
  db w = Some d → store_fault d = None →
  fst (daily_summary float_of_str user_id date w)
  = match add_totals float_of_str (matching_logs d user_id date) 0 with
    | Returned total => Returned (day_summary date total)
    | Raised e => Raised e
    end.
Proof.
  intros Hdb Hfault. now rewrite (daily_summary_run _ w d).
Qed.





(** X4: [daily_summary] only reads: it makes one store call, a find on
    "meallog", and leaves the store and the environment as they were; it
    raises a storage error when the store cannot serve the call, and an
    answer it returns carries the date it was asked for. *)
Theorem daily_summary_read_only w user_id date :
  let w' := snd (daily_summary float_of_str user_id date w) in
  db w' = db w
  ∧ environ w' = environ w
  ∧ store_calls w' = (store_calls w ++ [Find "meallog"])%list
  ∧ (¬ reachable w →
     ∃ msg, fst (daily_summary float_of_str user_id date w)
            = Raised (StorageError msg))
  ∧ (∀ r, fst (daily_summary float_of_str user_id date w) = Returned r →
          reachable w ∧ DaySummary.date r = date).
Proof using Type.
  unfold daily_summary, bind, get_documents, bind, record_call, connected,
    lift, ret, reachable.
  cbn [db environ store_calls].
  destruct (db w) as [d|] eqn:Hdb;
    [destruct (store_fault d) as [msg|] eqn:Hfault|]; cbn [fst snd db environ
                                                            store_calls].
  - repeat split; try reflexivity; try discriminate. now eexists.
  - destruct (add_totals _ _ _) as [total|e]; cbn [fst snd db environ
                                                    store_calls];
      (split; [reflexivity|]); (split; [reflexivity|]);
      (split; [reflexivity|]); split.
    + intros Hno. exfalso. apply Hno. now exists d.
    + intros r [= <-]. split; [now exists d|reflexivity].
    + intros Hno. exfalso. apply Hno. now exists d.
    + discriminate.
  - repeat split; try reflexivity; try discriminate. now eexists.
Qed.

Lemma add_totals_raises docs doc total :
  In doc docs →
  is_Returned (py_float float_of_str (dict_get doc "total_calories" (VInt 0)))
  = false →
  is_Returned (add_totals float_of_str docs total) = false.
Proof.
  revert total. induction docs as [|first rest IH]; intros total [].
  - subst first. intros Hbad. cbn [add_totals].
    now destruct (py_float _ _).
  - intros Hbad. cbn [add_totals].
    destruct (py_float _ (dict_get first _ _)); [now apply IH|reflexivity].
Qed.

(** X5: the default of the field read covers a missing field only: when a
    matching document holds a [total_calories] that is null, a list or a
    dict, [daily_summary] raises instead of answering. *)
Theorem daily_summary_rejects_null_total w d user_id date doc v :
  db w = Some d → store_fault d = None →
  In doc (matching_logs d user_id date) →
  doc !! "total_calories" = Some v → not_a_number v →
  ∃ e, fst (daily_summary float_of_str user_id date w) = Raised e.
Proof using Type.
  intros Hdb Hfault Hin Hv Hnan.
  rewrite (daily_summary_outcome w d) by assumption.
  assert (Hbad : is_Returned
            (add_totals float_of_str (matching_logs d user_id date) 0) = false).
  { apply (add_totals_raises _ doc); [exact Hin|].
    unfold dict_get. rewrite Hv. now destruct v. }
  destruct (add_totals _ _ _); [discriminate|now eexists].
Qed.

End LogAndSummary.



Lemma daily_summary_rejects_null_total_witness :
  ∃ e, fst (daily_summary no_numeral "u1" "2024-01-01" null_total_world)
       = Raised e.
Proof.
  refine (daily_summary_rejects_null_total no_numeral null_total_world _
            "u1" "2024-01-01"
            (<["total_calories" := VNull]> (legacy_log "u1" "2024-01-01"))
            VNull eq_refl eq_refl _ eq_refl I).
  left. reflexivity.
Defined.

(** ** More on the diagnostics *)

(** X6: [test_database] reads only: the store and the environment are as
    before, and it calls the store at most once, to list the collection
    names, and only when the handle is not [None]. *)
Theorem test_database_read_only w :
  let w' := snd (test_database w) in
  db w' = db w
  ∧ environ w' = environ w
  ∧ store_calls w'
    = (store_calls w
       ++ match db w with
          | Some _ => [ListCollectionNames]
          | None => []
          end)%list.
Proof.
  unfold test_database, try_except, bind, getenv, list_collection_names,
    bind, record_call, raise, ret.
  destruct (db w) as [d|] eqn:Hdb; [destruct (store_fault d)|];
    cbn [fst snd db environ store_calls]; rewrite ?Hdb, ?app_nil_r;
    repeat split.
Qed.

(** X7: the report says "Connected" exactly when the handle is not [None],
    also when the probe of the store fails; the two environment entries are
    reported only then, and an entry that is unset or empty is "Not Set". *)
Theorem test_database_connection_status w :
  ∃ r, fst (test_database w) = Returned r
    ∧ (Diagnostics.connection_status r = "Connected" ↔ db w ≠ None)
    ∧ (Diagnostics.connection_status r = "Not Connected" ↔ db w = None)
    ∧ (Diagnostics.database_url r = Some "✅ Set" ↔
       db w ≠ None ∧ ∃ c url, environ w !! "DATABASE_URL" = Some (String c url))
    ∧ (Diagnostics.database_name r = Some "✅ Set" ↔
       db w ≠ None ∧ ∃ c name, environ w !! "DATABASE_NAME" = Some (String c name))
    ∧ (Diagnostics.database_url r = None ↔ db w = None)
    ∧ (Diagnostics.database_name r = None ↔ db w = None).
Proof.
  assert (Hset : ∀ v : option string,
            Some (set_or_not v) = Some "✅ Set"
            ↔ ∃ c s, v = Some (String c s)).
  { intros [[|c s]|]; cbn; split; try discriminate; eauto;
      intros (c' & s' & H); discriminate. }
  unfold test_database, try_except, bind, getenv, list_collection_names,
    bind, record_call, raise, ret.
  destruct (db w) as [d|] eqn:Hdb; [destruct (store_fault d)|];
    cbn [fst snd db environ store_calls]; eexists; (split; [reflexivity|]);
    cbn [with_database with_collections Diagnostics.connection_status
         Diagnostics.database_url Diagnostics.database_name];
    rewrite ?Hset;
    repeat split; try discriminate; try congruence; try tauto;
    try (intros []; congruence); try (intros; discriminate).
Qed.

(** ** More on the diet plan *)

(** X8: the sex of a diet request is read without regard to case: the
    handler gives for every spelling what it gives for the lowercased
    one. *)
Theorem diet_plan_sex_case_insensitive req sex w :
  diet_plan (with_sex req sex) w = diet_plan (with_sex req (lower sex)) w.
Proof.
  unfold diet_plan, with_sex, diet_request.
  cbn [DietRequest.sex DietRequest.goal DietRequest.age DietRequest.height_cm
       DietRequest.weight_kg DietRequest.activity_level].
  now rewrite lower_idem.
Qed.

Lemma digits2_pos_lower m : 2 ^ (Zpos (digits2_pos m) - 1) <= Zpos m.
Proof.
  induction m as [m IH|m IH|]; cbn [digits2_pos]; [| |cbn; lia].
  - rewrite Pos2Z.inj_succ.
    replace (Z.succ (Zpos (digits2_pos m)) - 1)
      with (Z.succ (Zpos (digits2_pos m) - 1)) by lia.
    rewrite Z.pow_succ_r by lia. lia.
  - rewrite Pos2Z.inj_succ.
    replace (Z.succ (Zpos (digits2_pos m)) - 1)
      with (Z.succ (Zpos (digits2_pos m) - 1)) by lia.
    rewrite Z.pow_succ_r by lia. lia.
Qed.

(** Rounding does not go below the integer part. *)
Lemma round_half_even_lower m e :
  0 <= m →
  (if 0 <=? e then m else m / 2 ^ (- e)) <= round_half_even m e.
Proof.
  intros Hm. unfold round_half_even.
  destruct (0 <=? e) eqn:He.
  - apply Z.leb_le in He.
    assert (0 < 2 ^ e) by (apply Z.pow_pos_nonneg; lia). nia.
  - cbv zeta. destruct (2 * (m mod 2 ^ (- e)) ?= 2 ^ (- e)); try lia.
    destruct (Z.even _); lia.
Qed.

(** A float above 1200 rounds to an integer that is at least 1200. *)
Lemma py_round_above_floor x n :
  PrimFloat.ltb 1200 x = true → py_round x = Returned n → 1200 <= n.
Proof.
  rewrite ltb_spec. unfold py_round, SFltb.
  pose proof (Prim2SF_valid x) as Hvalid.
  change (Prim2SF 1200) with (S754_finite false 5277655813324800 (-42)).
  destruct (Prim2SF x) as [s|s| |s m e]; cbn [SFcompare];
    try discriminate; try (destruct s; discriminate).
  destruct s; [discriminate|].
  intros Hlt [= <-].
  pose proof (round_half_even_lower (Zpos m) e ltac:(lia)) as Hround.
  cbn [valid_binary] in Hvalid. unfold bounded, canonical_mantissa in Hvalid.
  apply andb_true_iff in Hvalid as [Hcanon _].
  apply Z.eqb_eq in Hcanon. unfold fexp, SpecFloat.emin, emax, prec in Hcanon.
  pose proof (digits2_pos_lower m) as Hdigits.
  destruct (-42 ?= e) eqn:He.
  - apply Z.compare_eq in He. subst e. cbn [Z.leb Z.compare] in Hround.
    change (PosDef.Pos.compare_cont Eq 5277655813324800 m)
      with (Pos.compare 5277655813324800 m) in Hlt.
    destruct (Pos.compare 5277655813324800 m) eqn:Hm; try discriminate.
    pose proof (proj1 (Pos.compare_lt_iff _ _) Hm) as Hm'.
    change (0 <=? -42) with false in Hround. cbv iota in Hround.
    assert (1200 <= Zpos m / 2 ^ (- -42)); [|lia].
    apply Z.div_le_lower_bound; [reflexivity|].
    change (2 ^ (- -42) * 1200) with 5277655813324800. lia.
  - change (-42 < e) in He.
    assert (Zpos (digits2_pos m) = 53) as Hd by lia.
    rewrite Hd in Hdigits. change (2 ^ (53 - 1)) with 4503599627370496 in Hdigits.
    destruct (0 <=? e) eqn:He0; [lia|].
    apply Z.leb_gt in He0.
    assert (2048 <= Zpos m / 2 ^ (- e)); [|lia].
    assert (0 < 2 ^ (- e)) by (apply Z.pow_pos_nonneg; lia).
    apply Z.div_le_lower_bound; [assumption|].
    assert (2 ^ (- e) <= 2 ^ 41) by (apply Z.pow_le_mono_r; lia).
    change (2 ^ 41) with 2199023255552 in *. lia.
  - discriminate.
Qed.

Lemma py_round_py_max_floor x n :
  py_round (py_max 1200 x) = Returned n → 1200 <= n.
Proof.
  unfold py_max. destruct (PrimFloat.ltb 1200 x) eqn:Hlt.
  - now apply py_round_above_floor.
  - change (py_round 1200) with (Returned (A:=Z) 1200). intros [= <-]. lia.
Qed.

(** X9: the safety lower bound holds for the answer: every plan that
    [diet_plan] returns has [target_calories] of at least 1200. *)
Theorem diet_plan_target_at_least_1200 req w plan :
  fst (diet_plan req w) = Returned plan →
  1200 <= DietPlan.target_calories plan.
Proof.
  unfold diet_plan.
  destruct (negb _); [discriminate|].
  destruct (_activity_factors !! _) as [factor|]; [|discriminate].
  cbv zeta. unfold bind, lift, ret.
  destruct (py_round (py_max 1200 _)) as [n|e] eqn:Hn; [|discriminate].
  apply py_round_py_max_floor in Hn.
  repeat match goal with
    | |- context [py_round ?x] => destruct (py_round x)
    end; cbn [fst]; try discriminate.
  now intros [= <-].
Qed.

Lemma diet_plan_target_at_least_1200_witness :
  1200 <= DietPlan.target_calories (diet_plan_of 2759 207 276 92).
Proof.
  refine (diet_plan_target_at_least_1200 worked_example fresh_world
            (diet_plan_of 2759 207 276 92) _).
  vm_compute. reflexivity.
Defined.

(** ** Totals of validated meals *)


















